(** * shippa: the AI error normalizer ([src/lib/aiError.ts])

    A shallow embedding of the error classifier [normalizeAIError], of the
    status reader [readStatusFrom], of the reporter [handleAIError] and of
    the message mapper [getStreamFriendlyMessage], with the properties the
    specification states about them.

    JavaScript values are modelled as data: an object is a finite map from
    property names to values (what [[Get]] and [in] observe along the whole
    prototype chain), a flag telling whether it is callable, and the list of
    SDK error classes whose prototype is on its prototype chain.  Accessor
    properties and proxies are outside the model.  Numbers are IEEE 754
    binary64 values ([spec_float]), so NaN and the infinities are inputs
    too.  Operations that throw in JavaScript return [Throw]. *)

From Stdlib Require Import ZArith NArith Ascii String Floats.SpecFloat.
From stdpp Require Import base option list gmap strings.

Open Scope string_scope.

(** ** Completions: a value, or a thrown exception *)

Inductive exn : Type :=
  | TypeError
  | TransportError (tag : nat).

Inductive completion (A : Type) : Type :=
  | Normal (a : A)
  | Throw (e : exn).
Arguments Normal {A} a.
Arguments Throw {A} e.

Definition bind {A B} (m : completion A) (k : A -> completion B) : completion B :=
  match m with
  | Normal a => k a
  | Throw e => Throw e
  end.

Declare Scope js_scope.
Delimit Scope js_scope with js.
Notation "'let*' x ':=' m 'in' k" := (bind m (fun x => k))
  (at level 10, x name, m at level 100, k at level 200) : js_scope.
Open Scope js_scope.

(** ** Numbers *)

Abbreviation number := spec_float.

(** The binary64 value of an integer literal. *)
Definition num (z : Z) : number := binary_normalize 53 1024 z 0 false.

(** [a === b] on numbers. *)
Definition num_eq (a b : number) : bool := SFeqb a b.
(** [a >= b] on numbers. *)
Definition num_ge (a b : number) : bool := SFleb b a.

(** ** Values *)

(** The error classes the module imports from the [ai] package. *)
Inductive sdk_class : Type :=
  | AISDKError
  | APICallError
  | EmptyResponseBodyError
  | InvalidPromptError
  | InvalidResponseDataError
  | JSONParseError
  | LoadAPIKeyError
  | NoContentGeneratedError
  | NoSuchModelError
  | TypeValidationError
  | UnsupportedFunctionalityError.

Global Instance sdk_class_eq_dec : EqDecision sdk_class.
Proof. solve_decision. Defined.

#[warnings="-register-all"]
Inductive value : Type :=
  | VUndefined
  | VNull
  | VBool (b : bool)
  | VNumber (n : number)
  | VString (s : string)
  | VBigInt (z : Z)
  | VSymbol (description : string)
  | VObject (callable : bool) (protos : list sdk_class) (props : gmap string value).

Inductive type_tag : Type :=
  | TUndefined | TObject | TBoolean | TNumber | TString | TBigint | TSymbol | TFunction.

Global Instance type_tag_eq_dec : EqDecision type_tag.
Proof. solve_decision. Defined.

(** [typeof v] *)
Definition typeof (v : value) : type_tag :=
  match v with
  | VUndefined => TUndefined
  | VNull => TObject
  | VBool _ => TBoolean
  | VNumber _ => TNumber
  | VString _ => TString
  | VBigInt _ => TBigint
  | VSymbol _ => TSymbol
  | VObject true _ _ => TFunction
  | VObject false _ _ => TObject
  end.

Definition is_null (v : value) : bool :=
  match v with VNull => true | _ => false end.

(** [v.k]: a TypeError on [undefined] and [null]; on the other primitives the
    lookup goes to the wrapper's prototype, which defines none of the keys
    this module reads ([name], [message], [stack], [cause]). *)
Definition get (v : value) (k : string) : completion value :=
  match v with
  | VUndefined | VNull => Throw TypeError
  | VObject _ _ props => Normal (default VUndefined (props !! k))
  | _ => Normal VUndefined
  end.

(** [v?.k] *)
Definition opt_get (v : value) (k : string) : completion value :=
  match v with
  | VUndefined | VNull => Normal VUndefined
  | _ => get v k
  end.

(** [k in v]: a TypeError unless [v] is an object or a function. *)
Definition has_in (k : string) (v : value) : completion bool :=
  match v with
  | VObject _ _ props => Normal (bool_decide (is_Some (props !! k)))
  | _ => Throw TypeError
  end.

(** [v instanceof C] for an imported class [C]: [C.prototype] is on the
    prototype chain of [v]; false on every primitive. *)
Definition instanceof (v : value) (c : sdk_class) : bool :=
  match v with
  | VObject _ protos _ => bool_decide (c ∈ protos)
  | _ => false
  end.

(** ** The helpers of [aiError.ts] *)

Definition isObject (value : value) : bool :=
  bool_decide (typeof value = TObject) && negb (is_null value).

Definition getString (value : value) (fallback : string) : string :=
  match value with
  | VString s => s
  | _ => fallback
  end.

Definition readNumber (value : value) : option number :=
  match value with
  | VNumber n => Some n
  | _ => None
  end.

Definition hasProp (obj : value) (key : string) : completion bool :=
  if isObject obj then has_in key obj else Normal false.

(** [hasProp(o, k) && typeof o.k === "number"], giving the number read. *)
Definition numeric_field (o : value) (k : string) : completion (option number) :=
  let* has := hasProp o k in
  if has then
    let* v := get o k in
    Normal (if bool_decide (typeof v = TNumber) then readNumber v else None)
  else Normal None.

Definition readStatusFrom (error : value) : completion (option number) :=
  let* s := numeric_field error "status" in
  match s with
  | Some n => Normal (Some n)
  | None =>
    let* s := numeric_field error "statusCode" in
    match s with
    | Some n => Normal (Some n)
    | None =>
      let* has_response := hasProp error "response" in
      if has_response then
        let* response := get error "response" in
        let* s := numeric_field response "status" in
        match s with
        | Some n => Normal (Some n)
        | None => Normal None
        end
      else Normal None
    end
  end.

Definition hasName (error : value) (names : list string) : completion bool :=
  let* n := opt_get error "name" in
  Normal (bool_decide (getString n "" ∈ names)).

(** [s.toLowerCase()] on ASCII letters; the module lowercases only the three
    network codes, which are ASCII. *)
Definition lower_ascii (c : ascii) : ascii :=
  let n := N_of_ascii c in
  if ((65 <=? n) && (n <=? 90))%N then ascii_of_N (n + 32) else c.

Fixpoint toLowerCase (s : string) : string :=
  match s with
  | EmptyString => EmptyString
  | String c s' => String (lower_ascii c) (toLowerCase s')
  end.

(** [s.startsWith(p)] *)
Definition startsWith (s p : string) : bool := String.prefix p s.

(** ** The classifier *)

Record NormalizedAIError : Type := {
  status : number;
  code : string;
  name : string;
  message : string;
  retryAfterMs : option number
}.

(** The conditional expression that maps the status of an [APICallError] to
    its code. *)
Definition apiCallCode (status : number) : string :=
  if num_eq status (num 401) then "auth.unauthorized"
  else if num_eq status (num 403) then "auth.forbidden"
  else if num_eq status (num 404) then "provider.not_found"
  else if num_eq status (num 409) then "provider.conflict"
  else if num_eq status (num 422) then "provider.unprocessable"
  else if num_eq status (num 429) then "provider.rate_limited"
  else if num_ge status (num 500) then "provider.error"
  else "provider.request_failed".

Definition normalizeAIError (error : value) : completion NormalizedAIError :=
  let* n := opt_get error "name" in
  let name := getString n "Error" in
  let* m := opt_get error "message" in
  let message := getString m "Unexpected error" in
  let result status code message :=
    {| status := status; code := code; name := name; message := message;
       retryAfterMs := None |} in
  if instanceof error LoadAPIKeyError then
    Normal (result (num 401) "auth.no_api_key" "Missing or invalid API key")
  else if instanceof error NoSuchModelError then
    Normal (result (num 400) "model.not_found" message)
  else if instanceof error UnsupportedFunctionalityError then
    Normal (result (num 400) "model.unsupported_functionality" message)
  else if instanceof error TypeValidationError || instanceof error InvalidPromptError then
    Normal (result (num 400) "input.invalid" message)
  else if instanceof error EmptyResponseBodyError
          || instanceof error InvalidResponseDataError
          || instanceof error JSONParseError then
    Normal (result (num 502) "provider.invalid_response" message)
  else if instanceof error NoContentGeneratedError then
    Normal (result (num 502) "provider.no_output" message)
  else if instanceof error APICallError then
    let* s := readStatusFrom error in
    let status := default (num 502) s in
    Normal (result status (apiCallCode status) message)
  else
  let* tool := hasName error
    ["InvalidToolInputError"; "NoSuchToolError"; "ToolCallRepairError"] in
  if tool then Normal (result (num 400) "tool.invalid" message) else
  let* input := hasName error
    ["InvalidArgumentError"; "InvalidDataContentError";
     "InvalidMessageRoleError"; "MessageConversionError"] in
  if input then Normal (result (num 400) "input.invalid" message) else
  let* part := hasName error ["InvalidStreamPartError"] in
  if part then Normal (result (num 502) "stream.invalid_part" message) else
  let* model := hasName error ["UnsupportedModelVersionError"; "NoSuchProviderError"] in
  if model then Normal (result (num 400) "model.unsupported" message) else
  let* net := hasName error ["DownloadError"; "MCPClientError"] in
  if net then Normal (result (num 502) "provider.network_error" message) else
  let* retry := hasName error ["RetryError"] in
  if retry then
    let* s := readStatusFrom error in
    Normal (result (default (num 503) s) "provider.retry" message)
  else
  (* the two last statements, reached when the code check does not return *)
  let rest :=
    if instanceof error AISDKError then
      let* s := readStatusFrom error in
      Normal (result (default (num 500) s) "ai_sdk.error" message)
    else Normal (result (num 500) "unknown" message) in
  let* has_code := hasProp error "code" in
  if has_code then
    let* c := get error "code" in
    match c with
    | VString code =>
      if bool_decide (code = "ETIMEDOUT") || bool_decide (code = "ECONNRESET")
         || bool_decide (code = "ENOTFOUND") then
        Normal (result (num 502) ("network." +:+ toLowerCase code) message)
      else rest
    | _ => rest
    end
  else rest.

(** ** The friendly message *)

Definition getStreamFriendlyMessage (error : value) : completion string :=
  let* normalized := normalizeAIError error in
  if startsWith (code normalized) "auth." then
    Normal "Authentication failed (check API key)."
  else if bool_decide (code normalized = "provider.rate_limited") then
    Normal "Rate limited. Please wait and try again."
  else if startsWith (code normalized) "input." then
    Normal "Invalid input. Please adjust your request and try again."
  else if startsWith (code normalized) "tool." then
    Normal "A tool call failed. Please try again."
  else if startsWith (code normalized) "model." then
    Normal "Model configuration issue. Please try again later."
  else if startsWith (code normalized) "network." then
    Normal "Network error. Please retry."
  else if bool_decide (code normalized = "provider.error") then
    Normal "The model provider had an error. Please retry."
  else Normal "Something went wrong. Please try again.".

(** ** The reporter

    The reporter talks to the console and to the response object.  Its
    effects are recorded as a trace of events; whether a method of the
    response object throws is decided by the transport, which sees the call
    and everything that happened before it. *)

Record log_entry : Type := {
  log_name : string;
  log_code : string;
  log_status : number;
  log_message : string;
  log_stack : value;
  log_cause : value
}.

(** [{ error: { code, name, message } }] *)
Record payload : Type := {
  error_code : string;
  error_name : string;
  error_message : string
}.

Inductive call : Type :=
  | CallStatus (status : number)
  | CallJson (body : payload)
  | CallEnd (chunk : string).

Inductive event : Type :=
  | Logged (label : string) (entry : log_entry)
  | Called (c : call) (thrown : option exn).

Definition transport : Type := list event -> call -> option exn.

Definition io (A : Type) : Type := list event -> list event * completion A.

Definition io_ret {A} (a : A) : io A := fun h => (h, Normal a).

Definition io_bind {A B} (m : io A) (k : A -> io B) : io B :=
  fun h =>
    match m h with
    | (h', Normal a) => k a h'
    | (h', Throw e) => (h', Throw e)
    end.

Notation "'let!' x ':=' m 'in' k" := (io_bind m (fun x => k))
  (at level 10, x name, m at level 100, k at level 200) : js_scope.

Definition lift {A} (c : completion A) : io A := fun h => (h, c).

(** [try { body } catch { handler }] *)
Definition try_catch {A} (body handler : io A) : io A :=
  fun h =>
    match body h with
    | (h', Throw _) => handler h'
    | done => done
    end.

(** [console.error(label, entry)] *)
Definition console_error (label : string) (entry : log_entry) : io unit :=
  fun h => ((h ++ [Logged label entry])%list, Normal tt).

(** A method call on the response object. *)
Definition call_method (res : transport) (c : call) : io unit :=
  fun h =>
    let thrown := res h c in
    ((h ++ [Called c thrown])%list,
     match thrown with
     | None => Normal tt
     | Some e => Throw e
     end).

Section Reporter.

(** [JSON.stringify], applied to a payload of three strings. *)
Variable JSON_stringify : payload -> string.

Definition handleAIError (res : transport) (error : value) : io unit :=
  let! n := lift (normalizeAIError error) in
  let! stack := lift (opt_get error "stack") in
  let! cause := lift (opt_get error "cause") in
  let! _ := console_error "AI Error"
    {| log_name := name n; log_code := code n; log_status := status n;
       log_message := message n; log_stack := stack; log_cause := cause |} in
  let payload :=
    {| error_code := code n; error_name := name n; error_message := message n |} in
  try_catch
    (let! _ := call_method res (CallStatus (status n)) in
     call_method res (CallJson payload))
    (try_catch
       (let! _ := call_method res (CallStatus (status n)) in
        call_method res (CallEnd (JSON_stringify payload)))
       (io_ret tt)).

End Reporter.

(** ** What the classifier reads, as pure functions of the input *)

(** The value of [v?.k]. *)
Definition field (v : value) (k : string) : value :=
  match v with
  | VObject _ _ props => default VUndefined (props !! k)
  | _ => VUndefined
  end.

(** [v] is a non-null object (not a function) that has the property [k]. *)
Definition has_own (v : value) (k : string) : bool :=
  match v with
  | VObject false _ props => bool_decide (is_Some (props !! k))
  | _ => false
  end.

(** The number stored under [k] in the object [o], if any. *)
Definition number_at (o : value) (k : string) : option number :=
  match o with
  | VObject false _ props => props !! k ≫= readNumber
  | _ => None
  end.

(** The value stored under [k] in the object [o], [undefined] if none. *)
Definition value_at (o : value) (k : string) : value :=
  match o with
  | VObject false _ props => default VUndefined (props !! k)
  | _ => VUndefined
  end.

(** Status extraction as the specification words it: a numeric [status],
    else a numeric [statusCode], else a numeric [response.status]. *)
Definition status_by_priority (error : value) : option number :=
  match number_at error "status" with
  | Some n => Some n
  | None =>
    match number_at error "statusCode" with
    | Some n => Some n
    | None => number_at (value_at error "response") "status"
    end
  end.

(** The input's own message, as the specification words it: the property
    when it is present and a string, the default otherwise. *)
Definition message_property (v : value) : string :=
  match v with
  | VObject _ _ props =>
    match props !! "message" with
    | Some (VString s) => s
    | _ => "Unexpected error"
    end
  | _ => "Unexpected error"
  end.

Definition name_property (v : value) : string :=
  match v with
  | VObject _ _ props =>
    match props !! "name" with
    | Some (VString s) => s
    | _ => "Error"
    end
  | _ => "Error"
  end.

(** ** The rule table of the specification

    The rows of the table of section 4.1, in order; the first row that
    matches decides. *)

Inductive rule : Type :=
  | RuleNoApiKey
  | RuleModelNotFound
  | RuleUnsupportedFunctionality
  | RuleInvalidInputKind
  | RuleInvalidResponse
  | RuleNoOutput
  | RuleApiCall
  | RuleToolInvalid
  | RuleInvalidInputName
  | RuleStreamPart
  | RuleModelUnsupported
  | RuleNetworkError
  | RuleRetry
  | RuleNetworkCode (c : string)
  | RuleSdk
  | RuleUnknown.

Definition name_in (v : value) (names : list string) : bool :=
  bool_decide (getString (field v "name") "" ∈ names).

Definition network_codes : list string := ["ETIMEDOUT"; "ECONNRESET"; "ENOTFOUND"].

(** The string [code] field of [v] when it is one of the network codes. *)
Definition network_code (v : value) : option string :=
  if has_own v "code" then
    match field v "code" with
    | VString c => if bool_decide (c ∈ network_codes) then Some c else None
    | _ => None
    end
  else None.

(** [v] is an instance of a class tested before the API-call rule. *)
Definition earlier_kind (v : value) : bool :=
  instanceof v LoadAPIKeyError || instanceof v NoSuchModelError
  || instanceof v UnsupportedFunctionalityError
  || instanceof v TypeValidationError || instanceof v InvalidPromptError
  || instanceof v EmptyResponseBodyError || instanceof v InvalidResponseDataError
  || instanceof v JSONParseError || instanceof v NoContentGeneratedError.

Definition rule_of (v : value) : rule :=
  if instanceof v LoadAPIKeyError then RuleNoApiKey
  else if instanceof v NoSuchModelError then RuleModelNotFound
  else if instanceof v UnsupportedFunctionalityError then RuleUnsupportedFunctionality
  else if instanceof v TypeValidationError || instanceof v InvalidPromptError
  then RuleInvalidInputKind
  else if instanceof v EmptyResponseBodyError || instanceof v InvalidResponseDataError
          || instanceof v JSONParseError
  then RuleInvalidResponse
  else if instanceof v NoContentGeneratedError then RuleNoOutput
  else if instanceof v APICallError then RuleApiCall
  else if name_in v ["InvalidToolInputError"; "NoSuchToolError"; "ToolCallRepairError"]
  then RuleToolInvalid
  else if name_in v ["InvalidArgumentError"; "InvalidDataContentError";
                     "InvalidMessageRoleError"; "MessageConversionError"]
  then RuleInvalidInputName
  else if name_in v ["InvalidStreamPartError"] then RuleStreamPart
  else if name_in v ["UnsupportedModelVersionError"; "NoSuchProviderError"]
  then RuleModelUnsupported
  else if name_in v ["DownloadError"; "MCPClientError"] then RuleNetworkError
  else if name_in v ["RetryError"] then RuleRetry
  else match network_code v with
       | Some c => RuleNetworkCode c
       | None => if instanceof v AISDKError then RuleSdk else RuleUnknown
       end.

(** The status column; [extracted] is the status read from the error. *)
Definition rule_status (r : rule) (extracted : option number) : number :=
  match r with
  | RuleNoApiKey => num 401
  | RuleModelNotFound | RuleUnsupportedFunctionality | RuleInvalidInputKind
  | RuleToolInvalid | RuleInvalidInputName | RuleModelUnsupported => num 400
  | RuleInvalidResponse | RuleNoOutput | RuleStreamPart | RuleNetworkError
  | RuleNetworkCode _ => num 502
  | RuleApiCall => default (num 502) extracted
  | RuleRetry => default (num 503) extracted
  | RuleSdk => default (num 500) extracted
  | RuleUnknown => num 500
  end.

(** The code column. *)
Definition rule_code (r : rule) (status : number) : string :=
  match r with
  | RuleNoApiKey => "auth.no_api_key"
  | RuleModelNotFound => "model.not_found"
  | RuleUnsupportedFunctionality => "model.unsupported_functionality"
  | RuleInvalidInputKind | RuleInvalidInputName => "input.invalid"
  | RuleInvalidResponse => "provider.invalid_response"
  | RuleNoOutput => "provider.no_output"
  | RuleApiCall => apiCallCode status
  | RuleToolInvalid => "tool.invalid"
  | RuleStreamPart => "stream.invalid_part"
  | RuleModelUnsupported => "model.unsupported"
  | RuleNetworkError => "provider.network_error"
  | RuleRetry => "provider.retry"
  | RuleNetworkCode c => "network." +:+ toLowerCase c
  | RuleSdk => "ai_sdk.error"
  | RuleUnknown => "unknown"
  end.

(** The statuses the specification lists for a normalized error. *)
Definition fixed_statuses : list number :=
  num <$> [400; 401; 403; 404; 409; 422; 429; 500; 502; 503]%Z.

(** The strings [getStreamFriendlyMessage] chooses from. *)
Definition friendly_messages : list string :=
  [ "Authentication failed (check API key).";
    "Rate limited. Please wait and try again.";
    "Invalid input. Please adjust your request and try again.";
    "A tool call failed. Please try again.";
    "Model configuration issue. Please try again later.";
    "Network error. Please retry.";
    "The model provider had an error. Please retry.";
    "Something went wrong. Please try again." ].

(** The code is none of the prefixes and exact values the mapper lists. *)
Definition unlisted_code (c : string) : bool :=
  negb (startsWith c "auth." || bool_decide (c = "provider.rate_limited")
        || startsWith c "input." || startsWith c "tool."
        || startsWith c "model." || startsWith c "network."
        || bool_decide (c = "provider.error")).

(** The choice of section 4.3, as a relation between a normalized code and
    the string shown: a prefix or an exact value of the code selects the
    string, and a code that is not listed gets the generic one. *)
Inductive friendly_for : string -> string -> Prop :=
  | friendly_auth (c : string) :
      startsWith c "auth." = true ->
      friendly_for c "Authentication failed (check API key)."
  | friendly_rate_limited :
      friendly_for "provider.rate_limited" "Rate limited. Please wait and try again."
  | friendly_input (c : string) :
      startsWith c "input." = true ->
      friendly_for c "Invalid input. Please adjust your request and try again."
  | friendly_tool (c : string) :
      startsWith c "tool." = true ->
      friendly_for c "A tool call failed. Please try again."
  | friendly_model (c : string) :
      startsWith c "model." = true ->
      friendly_for c "Model configuration issue. Please try again later."
  | friendly_network (c : string) :
      startsWith c "network." = true ->
      friendly_for c "Network error. Please retry."
  | friendly_provider_error :
      friendly_for "provider.error" "The model provider had an error. Please retry."
  | friendly_generic (c : string) :
      unlisted_code c = true ->
      friendly_for c "Something went wrong. Please try again.".

(** The pairs of the API-call sub-mapping of the specification. *)
Definition api_call_table : list (Z * string) :=
  [ (401, "auth.unauthorized"); (403, "auth.forbidden");
    (404, "provider.not_found"); (409, "provider.conflict");
    (422, "provider.unprocessable"); (429, "provider.rate_limited") ]%Z.

(** ** The traces of the reporter *)

(** The events of a run of [res.status(status).json(payload)] that threw. *)
Inductive json_write_failed (st : number) (p : payload) : list event -> Prop :=
  | json_status_threw (e : exn) :
      json_write_failed st p [Called (CallStatus st) (Some e)]
  | json_threw (e : exn) :
      json_write_failed st p
        [Called (CallStatus st) None; Called (CallJson p) (Some e)].

(** The events of a run of [res.status(status).end(body)], thrown or not. *)
Inductive raw_write (st : number) (body : string) : list event -> Prop :=
  | raw_status_threw (e : exn) :
      raw_write st body [Called (CallStatus st) (Some e)]
  | raw_end (thrown : option exn) :
      raw_write st body
        [Called (CallStatus st) None; Called (CallEnd body) thrown].

(** What the reporter does with the response object: the JSON write alone
    when it succeeds, and otherwise the failed JSON write followed by one
    raw write. *)
Inductive reporter_writes (st : number) (p : payload) (body : string) :
  list event -> Prop :=
  | writes_json :
      reporter_writes st p body
        [Called (CallStatus st) None; Called (CallJson p) None]
  | writes_fallback (failed raw : list event) :
      json_write_failed st p failed -> raw_write st body raw ->
      reporter_writes st p body (failed ++ raw)%list.

Definition is_log (ev : event) : bool :=
  match ev with Logged _ _ => true | Called _ _ => false end.

Definition is_json_call (ev : event) : bool :=
  match ev with Called (CallJson _) _ => true | _ => false end.

Definition is_end_call (ev : event) : bool :=
  match ev with Called (CallEnd _) _ => true | _ => false end.

(** ** Example inputs *)

Definition unknown_default : NormalizedAIError :=
  {| status := num 500; code := "unknown"; name := "Error";
     message := "Unexpected error"; retryAfterMs := None |}.

(** An object whose fields all have the wrong type. *)
Definition wrongly_typed : value :=
  VObject false []
    {[ "name" := VNumber (num 7); "message" := VNull;
       "status" := VString "503"; "code" := VNumber (num 1) ]}.

(** [{name: "LoadAPIKeyError"}] *)
Definition named_LoadAPIKeyError : value :=
  VObject false [] {[ "name" := VString "LoadAPIKeyError" ]}.

(** An instance of [LoadAPIKeyError], as the SDK constructs it. *)
Definition thrown_LoadAPIKeyError : value :=
  VObject false [LoadAPIKeyError; AISDKError]
    {[ "name" := VString "AI_LoadAPIKeyError";
       "message" := VString "API key is missing. Pass it using the apiKey parameter." ]}.

(** An instance of [APICallError] carrying the status [k] in [statusCode]. *)
Definition thrown_APICallError (k : Z) : value :=
  VObject false [APICallError; AISDKError]
    {[ "name" := VString "AI_APICallError"; "message" := VString "request failed";
       "statusCode" := VNumber (num k) ]}.

(** [{name: "RetryError", code: "ETIMEDOUT"}] *)
Definition retry_with_network_code : value :=
  VObject false [] {[ "name" := VString "RetryError"; "code" := VString "ETIMEDOUT" ]}.

(** [{code: "ETIMEDOUT"}] *)
Definition only_network_code : value :=
  VObject false [] {[ "code" := VString "ETIMEDOUT" ]}.

(** An [APICallError] with [status: a] and [statusCode: b]. *)
Definition both_statuses (a b : Z) : value :=
  VObject false [APICallError; AISDKError]
    {[ "status" := VNumber (num a); "statusCode" := VNumber (num b) ]}.

(** ** Further vocabulary for the classifier *)

(** Every code a return statement of [normalizeAIError] can produce. *)
Definition all_codes : list string :=
  [ "auth.no_api_key"; "model.not_found"; "model.unsupported_functionality";
    "input.invalid"; "provider.invalid_response"; "provider.no_output";
    "auth.unauthorized"; "auth.forbidden"; "provider.not_found";
    "provider.conflict"; "provider.unprocessable"; "provider.rate_limited";
    "provider.error"; "provider.request_failed"; "tool.invalid";
    "stream.invalid_part"; "model.unsupported"; "provider.network_error";
    "provider.retry"; "network.etimedout"; "network.econnreset";
    "network.enotfound"; "ai_sdk.error"; "unknown" ].

(** The names the [hasName] rules test, in the order of the rules. *)
Definition listed_names : list string :=
  [ "InvalidToolInputError"; "NoSuchToolError"; "ToolCallRepairError";
    "InvalidArgumentError"; "InvalidDataContentError";
    "InvalidMessageRoleError"; "MessageConversionError";
    "InvalidStreamPartError";
    "UnsupportedModelVersionError"; "NoSuchProviderError";
    "DownloadError"; "MCPClientError";
    "RetryError" ].

(** The properties [normalizeAIError] reads. *)
Definition read_keys : list string :=
  ["name"; "message"; "code"; "status"; "statusCode"; "response"].

(** The object [normalizeAIError] returns, as a value: the object literal
    [{ status, code, name, message }]. *)
Definition to_value (r : NormalizedAIError) : value :=
  VObject false []
    {[ "status" := VNumber (status r); "code" := VString (code r);
       "name" := VString (name r); "message" := VString (message r) ]}.

(** The string [getStreamFriendlyMessage] returns, by the rule that
    classifies the input and the status of the result. *)
Definition rule_friendly (r : rule) (status : number) : string :=
  match r with
  | RuleNoApiKey => "Authentication failed (check API key)."
  | RuleModelNotFound | RuleUnsupportedFunctionality | RuleModelUnsupported =>
    "Model configuration issue. Please try again later."
  | RuleInvalidInputKind | RuleInvalidInputName =>
    "Invalid input. Please adjust your request and try again."
  | RuleToolInvalid => "A tool call failed. Please try again."
  | RuleNetworkCode _ => "Network error. Please retry."
  | RuleApiCall =>
    if num_eq status (num 401) || num_eq status (num 403)
    then "Authentication failed (check API key)."
    else if num_eq status (num 404) || num_eq status (num 409)
            || num_eq status (num 422)
    then "Something went wrong. Please try again."
    else if num_eq status (num 429) then "Rate limited. Please wait and try again."
    else if num_ge status (num 500)
    then "The model provider had an error. Please retry."
    else "Something went wrong. Please try again."
  | RuleInvalidResponse | RuleNoOutput | RuleStreamPart | RuleNetworkError
  | RuleRetry | RuleSdk | RuleUnknown => "Something went wrong. Please try again."
  end.

(** ** The chat handlers

    The two API route handlers of the repository.  The response object, the
    [ai] SDK, the Google provider and zod are outside the repository: every
    call into them is recorded as an event, and the world decides, from the
    call and the events so far, whether it returns (an opaque handle) or
    throws.  A handler is an [async] function: [Throw] is a rejected
    promise. *)

Record request : Type := {
  req_method : value;
  req_body : value
}.

Definition handle : Type := nat.

(** The argument of [streamText]. *)
Record streamTextOptions : Type := {
  opt_model : handle;
  opt_stopWhen : option handle;
  opt_messages : handle;
  opt_tools : list (string * handle)
}.

Inductive api_call : Type :=
  | ResSetHeader (key val : string)
  | ResStatus (statusCode : number)
  | ResEnd (target : handle) (chunk : string)
  | SdkGoogle (modelId : string)
  | SdkStepCountIs (stepCount : number)
  | SdkConvertToModelMessages (messages : value)
  | ZodString
  | ZodDescribe (schema : handle) (description : string)
  | ZodObject (shape : list (string * handle))
  | SdkTool (description : string) (inputSchema : handle)
  | SdkStreamText (options : streamTextOptions)
  | SdkPipeUIMessageStreamToResponse (result : handle).

Inductive api_event : Type :=
  | Performed (c : api_call) (outcome : completion handle).

Definition world : Type := list api_event -> api_call -> completion handle.

Definition act (A : Type) : Type := list api_event -> list api_event * completion A.

Definition act_ret {A} (a : A) : act A := fun h => (h, Normal a).

Definition act_bind {A B} (m : act A) (k : A -> act B) : act B :=
  fun h =>
    match m h with
    | (h', Normal a) => k a h'
    | (h', Throw e) => (h', Throw e)
    end.

Notation "'let+' x ':=' m 'in' k" := (act_bind m (fun x => k))
  (at level 10, x name, m at level 100, k at level 200) : js_scope.

Definition act_lift {A} (c : completion A) : act A := fun h => (h, c).

(** A call into the world. *)
Definition perform (w : world) (c : api_call) : act handle :=
  fun h => let outcome := w h c in ((h ++ [Performed c outcome])%list, outcome).

(** [v !== s] for a string literal [s]. *)
Definition strict_neq_string (v : value) (s : string) : bool :=
  match v with
  | VString t => negb (bool_decide (t = s))
  | _ => true
  end.

Module ChatSteps.

(** The handler that stops after five steps. *)
Definition handler (w : world) (req : request) : act unit :=
  if strict_neq_string (req_method req) "POST" then
    let+ _ := perform w (ResSetHeader "Allow" "POST") in
    let+ res := perform w (ResStatus (num 405)) in
    let+ _ := perform w (ResEnd res "Method Not Allowed") in
    act_ret tt
  else
    (* const { messages } = req.body *)
    let+ messages := act_lift (get (req_body req) "messages") in
    let+ model := perform w (SdkGoogle "gemini-1.5-flash") in
    let+ stopWhen := perform w (SdkStepCountIs (num 5)) in
    let+ converted := perform w (SdkConvertToModelMessages messages) in
    let+ result :=
      perform w (SdkStreamText {| opt_model := model; opt_stopWhen := Some stopWhen;
                                  opt_messages := converted; opt_tools := [] |}) in
    let+ _ := perform w (SdkPipeUIMessageStreamToResponse result) in
    act_ret tt.

End ChatSteps.

Module ChatTools.

(** The handler that offers the weather tool.  The [execute] function of the
    tool is passed to [tool] as a closure; the handler does not call it. *)
Definition handler (w : world) (req : request) : act unit :=
  if strict_neq_string (req_method req) "POST" then
    let+ _ := perform w (ResSetHeader "Allow" "POST") in
    let+ res := perform w (ResStatus (num 405)) in
    let+ _ := perform w (ResEnd res "Method Not Allowed") in
    act_ret tt
  else
    (* const { messages } = req.body *)
    let+ messages := act_lift (get (req_body req) "messages") in
    let+ model := perform w (SdkGoogle "gemini-1.5-flash") in
    let+ converted := perform w (SdkConvertToModelMessages messages) in
    let+ str := perform w ZodString in
    let+ location :=
      perform w (ZodDescribe str "The location to get the weather for") in
    let+ inputSchema := perform w (ZodObject [("location", location)]) in
    let+ weather :=
      perform w (SdkTool "Get the weather in a location" inputSchema) in
    let+ result :=
      perform w (SdkStreamText {| opt_model := model; opt_stopWhen := None;
                                  opt_messages := converted;
                                  opt_tools := [("weather", weather)] |}) in
    let+ _ := perform w (SdkPipeUIMessageStreamToResponse result) in
    act_ret tt.

End ChatTools.

(** The call of an event, and whether it threw. *)
Definition call_of (ev : api_event) : api_call :=
  match ev with Performed c _ => c end.

Definition threw (ev : api_event) : bool :=
  match ev with Performed _ (Throw _) => true | _ => false end.

(** The calls that write to the response object directly. *)
Definition is_response_write (c : api_call) : bool :=
  match c with
  | ResSetHeader _ _ | ResStatus _ | ResEnd _ _ => true
  | _ => false
  end.

Definition is_streamText (c : api_call) : bool :=
  match c with SdkStreamText _ => true | _ => false end.

(** A run of calls that stops at the first one that throws: every event but
    the last returned, and the outcome is that of the last event. *)
Definition stops_at_first_throw (tr : list api_event) (out : completion unit) : Prop :=
  Forall (fun ev => threw ev = false) (removelast tr)
  /\ match last tr with
     | Some (Performed _ (Throw e)) => out = Throw e
     | Some (Performed _ (Normal _)) => out = Normal tt
     | None => False
     end.

(** A script is the sequence of calls a handler makes when nothing throws;
    a call may use the handles the earlier calls returned.  [follows script
    got tr out] says that the trace [tr] is the script run up to its first
    call that throws, [got] being the handles returned so far, and that
    [out] is that exception, or normal completion when every call
    returned. *)
Fixpoint follows (script : list (list handle -> api_call)) (got : list handle)
    (tr : list api_event) (out : completion unit) : Prop :=
  match script with
  | [] => tr = [] /\ out = Normal tt
  | step :: rest =>
    exists (outcome : completion handle) (tr' : list api_event),
      tr = Performed (step got) outcome :: tr'
      /\ match outcome with
         | Normal a => follows rest (got ++ [a])%list tr' out
         | Throw e => tr' = [] /\ out = Throw e
         end
  end.

(** The [n]-th handle returned so far. *)
Definition nth_handle (got : list handle) (n : nat) : handle := nth n got 0.

(** What the handlers do for a method other than POST. *)
Definition rejected_script : list (list handle -> api_call) :=
  [ fun _ => ResSetHeader "Allow" "POST";
    fun _ => ResStatus (num 405);
    fun got => ResEnd (nth_handle got 1) "Method Not Allowed" ].

(** What [ChatSteps.handler] does for a POST whose body holds [messages]. *)
Definition steps_script (messages : value) : list (list handle -> api_call) :=
  [ fun _ => SdkGoogle "gemini-1.5-flash";
    fun _ => SdkStepCountIs (num 5);
    fun _ => SdkConvertToModelMessages messages;
    fun got => SdkStreamText
                 {| opt_model := nth_handle got 0;
                    opt_stopWhen := Some (nth_handle got 1);
                    opt_messages := nth_handle got 2; opt_tools := [] |};
    fun got => SdkPipeUIMessageStreamToResponse (nth_handle got 3) ].

(** What [ChatTools.handler] does for a POST whose body holds [messages]. *)
Definition tools_script (messages : value) : list (list handle -> api_call) :=
  [ fun _ => SdkGoogle "gemini-1.5-flash";
    fun _ => SdkConvertToModelMessages messages;
    fun _ => ZodString;
    fun got => ZodDescribe (nth_handle got 2) "The location to get the weather for";
    fun got => ZodObject [("location", nth_handle got 3)];
    fun got => SdkTool "Get the weather in a location" (nth_handle got 4);
    fun got => SdkStreamText
                 {| opt_model := nth_handle got 0; opt_stopWhen := None;
                    opt_messages := nth_handle got 1;
                    opt_tools := [("weather", nth_handle got 5)] |};
    fun got => SdkPipeUIMessageStreamToResponse (nth_handle got 6) ].

(** [v] is [null] or [undefined]. *)
Definition nullish (v : value) : bool :=
  match v with VUndefined | VNull => true | _ => false end.

(** A world in which every call returns, and one in which
    [convertToModelMessages] throws. *)
Definition obliging_world : world := fun _ _ => Normal 7.

Definition failing_conversion : world :=
  fun _ c =>
    match c with
    | SdkConvertToModelMessages _ => Throw TypeError
    | _ => Normal 7
    end.

(** * Properties *)

(** ** Property reads never throw where the module guards them *)

Lemma opt_get_field (v : value) (k : string) : opt_get v k = Normal (field v k).
Proof. destruct v; reflexivity. Qed.

Lemma hasProp_has_own (v : value) (k : string) : hasProp v k = Normal (has_own v k).
Proof. destruct v as [| | | | | | |[] ? ?]; reflexivity. Qed.

Lemma has_own_get (v : value) (k k' : string) :
  has_own v k = true -> get v k' = Normal (field v k').
Proof. destruct v as [| | | | | | |[] ? ?]; cbn; congruence. Qed.

Lemma numeric_field_number_at (o : value) (k : string) :
  numeric_field o k = Normal (number_at o k).
Proof.
  unfold numeric_field. rewrite hasProp_has_own. cbn [bind].
  destruct o as [| | | | | | |[] protos props]; try reflexivity.
  cbn. destruct (props !! k) as [x|] eqn:Hk; cbn; [|reflexivity].
  destruct x as [| | | | | | |[] ? ?]; reflexivity.
Qed.

Lemma hasName_name_in (v : value) (names : list string) :
  hasName v names = Normal (name_in v names).
Proof. unfold hasName. rewrite opt_get_field. reflexivity. Qed.

Lemma readStatusFrom_priority (v : value) :
  readStatusFrom v = Normal (status_by_priority v).
Proof.
  unfold readStatusFrom, status_by_priority.
  rewrite !numeric_field_number_at. cbn [bind].
  destruct (number_at v "status"); [reflexivity|].
  destruct (number_at v "statusCode"); [reflexivity|].
  rewrite hasProp_has_own. cbn [bind].
  destruct (has_own v "response") eqn:Hr.
  - rewrite (has_own_get _ _ _ Hr). cbn [bind].
    rewrite numeric_field_number_at. cbn [bind].
    destruct v as [| | | | | | |[] protos props]; try discriminate Hr.
    cbn [field value_at]. destruct (number_at _ "status"); reflexivity.
  - destruct v as [| | | | | | |[] protos props]; try reflexivity.
    cbn [has_own] in Hr. cbn [value_at].
    destruct (props !! "response"); [|reflexivity].
    rewrite bool_decide_true in Hr by eauto. discriminate.
Qed.

(** ** The classifier follows the rule table *)

Lemma getString_name (v : value) : getString (field v "name") "Error" = name_property v.
Proof.
  destruct v as [| | | | | | |c protos props]; try reflexivity.
  cbn. destruct (props !! "name") as [[]|]; reflexivity.
Qed.

Lemma getString_message (v : value) :
  getString (field v "message") "Unexpected error" = message_property v.
Proof.
  destruct v as [| | | | | | |c protos props]; try reflexivity.
  cbn. destruct (props !! "message") as [[]|]; reflexivity.
Qed.

Ltac split_if :=
  match goal with
  | |- context [if ?b then _ else _] => destruct b eqn:?
  end.

Lemma network_codes_elem (c : string) :
  bool_decide (c ∈ network_codes)
  = bool_decide (c = "ETIMEDOUT") || bool_decide (c = "ECONNRESET")
    || bool_decide (c = "ENOTFOUND").
Proof.
  rewrite <- !bool_decide_or. apply bool_decide_ext.
  unfold network_codes. rewrite !elem_of_cons, elem_of_nil. tauto.
Qed.

Lemma normalizeAIError_table (v : value) :
  normalizeAIError v =
  Normal {| status := rule_status (rule_of v) (status_by_priority v);
            code := rule_code (rule_of v)
                      (rule_status (rule_of v) (status_by_priority v));
            name := name_property v;
            message := if instanceof v LoadAPIKeyError
                       then "Missing or invalid API key"
                       else message_property v;
            retryAfterMs := None |}.
Proof.
  unfold normalizeAIError, rule_of.
  rewrite !opt_get_field, !hasName_name_in, !readStatusFrom_priority, hasProp_has_own.
  cbn [bind]. rewrite getString_name, getString_message.
  destruct (instanceof v LoadAPIKeyError); [reflexivity|].
  destruct (instanceof v NoSuchModelError); [reflexivity|].
  destruct (instanceof v UnsupportedFunctionalityError); [reflexivity|].
  destruct (instanceof v TypeValidationError || instanceof v InvalidPromptError);
    [reflexivity|].
  destruct (instanceof v EmptyResponseBodyError || instanceof v InvalidResponseDataError
            || instanceof v JSONParseError); [reflexivity|].
  destruct (instanceof v NoContentGeneratedError); [reflexivity|].
  destruct (instanceof v APICallError); [reflexivity|].
  do 6 (destruct (name_in v _); [reflexivity|]).
  unfold network_code.
  destruct (has_own v "code") eqn:Hcode.
  - rewrite (has_own_get _ _ _ Hcode). cbn [bind].
    destruct (field v "code") as [| | | |c| | |]; try (split_if; reflexivity).
    rewrite network_codes_elem. repeat split_if; reflexivity.
  - repeat split_if; reflexivity.
Qed.

(** ** Comparing a status with a literal *)

Lemma compare_cont_Eq_inv (p q : positive) : Pos.compare_cont Eq p q = Eq -> p = q.
Proof. apply Pos.compare_eq. Qed.

(** [x === c] for a finite non-zero [c] holds only when [x] is [c]. *)
Lemma SFeqb_finite_inv (x : number) (s : bool) (m : positive) (e : Z) :
  SFeqb x (S754_finite s m e) = true -> x = S754_finite s m e.
Proof.
  unfold SFeqb, SFcompare.
  destruct x as [sx|sx| |sx mx ex]; try (destruct sx, s; discriminate); try discriminate.
  destruct sx, s; try discriminate.
  - destruct (Z.compare_spec ex e) as [->| |]; try discriminate.
    destruct (Pos.compare_cont Eq mx m) eqn:Hm; try discriminate.
    intros _. apply compare_cont_Eq_inv in Hm. congruence.
  - destruct (Z.compare_spec ex e) as [->| |]; try discriminate.
    destruct (Pos.compare_cont Eq mx m) eqn:Hm; try discriminate.
    intros _. apply compare_cont_Eq_inv in Hm. congruence.
Qed.

Lemma api_call_table_cases (P : Z -> string -> Prop) :
  P 401%Z "auth.unauthorized" -> P 403%Z "auth.forbidden" ->
  P 404%Z "provider.not_found" -> P 409%Z "provider.conflict" ->
  P 422%Z "provider.unprocessable" -> P 429%Z "provider.rate_limited" ->
  forall k c, (k, c) ∈ api_call_table -> P k c.
Proof.
  intros H1 H2 H3 H4 H5 H6 k c Hin. unfold api_call_table in Hin.
  rewrite !elem_of_cons, elem_of_nil in Hin.
  destruct Hin as [Heq|[Heq|[Heq|[Heq|[Heq|[Heq|[]]]]]]];
    injection Heq as -> ->; assumption.
Qed.

Lemma num_eq_table_inv (s : number) (k : Z) (c : string) :
  (k, c) ∈ api_call_table -> num_eq s (num k) = true -> s = num k.
Proof.
  intros Hin. revert k c Hin s.
  apply (api_call_table_cases (fun k _ => forall s, num_eq s (num k) = true -> s = num k));
    intros s; apply SFeqb_finite_inv.
Qed.

Lemma apiCallCode_table (s : number) (k : Z) (c : string) :
  (k, c) ∈ api_call_table -> num_eq s (num k) = true -> apiCallCode s = c.
Proof.
  intros Hin Heq. rewrite (num_eq_table_inv s k c Hin Heq). clear Heq s.
  revert k c Hin.
  apply (api_call_table_cases (fun k c => apiCallCode (num k) = c)); reflexivity.
Qed.

Lemma num_ge_500_not_in_table (s : number) (k : Z) (c : string) :
  (k, c) ∈ api_call_table -> num_ge s (num 500) = true -> num_eq s (num k) = false.
Proof.
  intros Hin Hge. destruct (num_eq s (num k)) eqn:Heq; [|reflexivity].
  rewrite (num_eq_table_inv s k c Hin Heq) in Hge. clear Heq s. exfalso.
  revert k c Hin Hge.
  apply (api_call_table_cases (fun k _ => num_ge (num k) (num 500) = true -> False));
    discriminate.
Qed.

Lemma apiCallCode_ge_500 (s : number) :
  num_ge s (num 500) = true -> apiCallCode s = "provider.error".
Proof.
  intros Hge. unfold apiCallCode.
  rewrite (num_ge_500_not_in_table s 401 "auth.unauthorized"),
    (num_ge_500_not_in_table s 403 "auth.forbidden"),
    (num_ge_500_not_in_table s 404 "provider.not_found"),
    (num_ge_500_not_in_table s 409 "provider.conflict"),
    (num_ge_500_not_in_table s 422 "provider.unprocessable"),
    (num_ge_500_not_in_table s 429 "provider.rate_limited"), Hge;
    try reflexivity; try assumption;
    unfold api_call_table; rewrite !elem_of_cons; tauto.
Qed.

Lemma apiCallCode_other (s : number) :
  (forall k c, (k, c) ∈ api_call_table -> num_eq s (num k) = false) ->
  num_ge s (num 500) = false -> apiCallCode s = "provider.request_failed".
Proof.
  intros Hno Hge. unfold apiCallCode.
  rewrite (Hno 401%Z "auth.unauthorized"), (Hno 403%Z "auth.forbidden"),
    (Hno 404%Z "provider.not_found"), (Hno 409%Z "provider.conflict"),
    (Hno 422%Z "provider.unprocessable"), (Hno 429%Z "provider.rate_limited"), Hge;
    try reflexivity; unfold api_call_table; rewrite !elem_of_cons; tauto.
Qed.

(** ** Which inputs reach which rule *)

Lemma rule_of_api_call (v : value) :
  earlier_kind v = false -> instanceof v APICallError = true -> rule_of v = RuleApiCall.
Proof.
  unfold earlier_kind, rule_of. intros He Ha.
  repeat (apply orb_false_elim in He; destruct He as [He ?]).
  repeat match goal with H : _ = false |- _ => rewrite H; clear H end.
  rewrite Ha. reflexivity.
Qed.

Lemma rule_of_no_api_key (v : value) :
  rule_of v = RuleNoApiKey -> instanceof v LoadAPIKeyError = true.
Proof.
  unfold rule_of. destruct (instanceof v LoadAPIKeyError); [reflexivity|].
  repeat split_if; try discriminate; destruct (network_code v); discriminate.
Qed.

Lemma rule_of_extracting (v : value) :
  rule_of v = RuleApiCall \/ rule_of v = RuleRetry \/ rule_of v = RuleSdk ->
  instanceof v APICallError = true \/ name_in v ["RetryError"] = true
  \/ instanceof v AISDKError = true.
Proof.
  unfold rule_of.
  destruct (instanceof v APICallError); [tauto|].
  destruct (name_in v ["RetryError"]); [tauto|].
  destruct (instanceof v AISDKError); [tauto|].
  repeat split_if; try (intros [|[|]]; discriminate);
    destruct (network_code v); intros [|[|]]; discriminate.
Qed.

Lemma name_in_retry (v : value) :
  name_property v = "RetryError" -> getString (field v "name") "" = "RetryError".
Proof.
  destruct v as [| | | | | | |c protos props]; try discriminate.
  cbn. destruct (props !! "name") as [[]|]; cbn; try discriminate. trivial.
Qed.

Lemma rule_of_retry (v : value) :
  earlier_kind v = false -> instanceof v APICallError = false ->
  name_property v = "RetryError" -> rule_of v = RuleRetry.
Proof.
  unfold earlier_kind, rule_of, name_in. intros He Ha Hn.
  repeat (apply orb_false_elim in He; destruct He as [He ?]).
  repeat match goal with H : _ = false |- _ => rewrite H; clear H end.
  rewrite (name_in_retry v Hn). reflexivity.
Qed.

Lemma rule_code_no_api_key (r : rule) (s : number) :
  rule_code r s = "auth.no_api_key" -> r = RuleNoApiKey.
Proof.
  destruct r; cbn; try discriminate; try reflexivity.
  unfold apiCallCode. repeat split_if; discriminate.
Qed.

Lemma fixed_status_literals :
  num 400 ∈ fixed_statuses /\ num 401 ∈ fixed_statuses /\ num 500 ∈ fixed_statuses
  /\ num 502 ∈ fixed_statuses /\ num 503 ∈ fixed_statuses.
Proof.
  unfold fixed_statuses. cbn [fmap list_fmap].
  repeat split; repeat first [apply list_elem_of_here | apply list_elem_of_further].
Qed.

(** * The claims *)

(** C1. The classifier is total and never throws: every input value yields a
    [NormalizedAIError]; when no rule of the table matches, the record has
    status 500 and code ["unknown"].  [null], [undefined], a number, a
    string, the empty object and an object whose fields are wrongly typed
    all yield the default record. *)
Theorem normalizeAIError_total :
  (forall v : value, exists r : NormalizedAIError,
      normalizeAIError v = Normal r
      /\ (rule_of v = RuleUnknown -> status r = num 500 /\ code r = "unknown"))
  /\ Forall (fun v => normalizeAIError v = Normal unknown_default)
       [VNull; VUndefined; VNumber (num 42); VNumber S754_nan; VBool true;
        VString "just a string"; VObject false [] ∅; wrongly_typed].
Proof.
  split.
  - intros v. eexists. split; [apply normalizeAIError_table|].
    cbn [status code]. intros ->. split; reflexivity.
  - repeat constructor.
Qed.

(** C2, as the specification states it, fails: an [APICallError] carrying
    status 418 is normalized to status 418, which is outside the fixed
    set. *)
Lemma status_outside_fixed_set :
  normalizeAIError (thrown_APICallError 418) =
    Normal {| status := num 418; code := "provider.request_failed";
              name := "AI_APICallError"; message := "request failed";
              retryAfterMs := None |}
  /\ num 418 ∉ fixed_statuses.
Proof.
  split; [reflexivity|].
  unfold fixed_statuses. cbn [fmap list_fmap].
  rewrite !not_elem_of_cons. repeat split; try discriminate. apply not_elem_of_nil.
Qed.

Lemma name_in_listed (v : value) :
  name_in v listed_names
  = name_in v ["InvalidToolInputError"; "NoSuchToolError"; "ToolCallRepairError"]
    || name_in v ["InvalidArgumentError"; "InvalidDataContentError";
                  "InvalidMessageRoleError"; "MessageConversionError"]
    || name_in v ["InvalidStreamPartError"]
    || name_in v ["UnsupportedModelVersionError"; "NoSuchProviderError"]
    || name_in v ["DownloadError"; "MCPClientError"]
    || name_in v ["RetryError"].
Proof.
  unfold name_in. rewrite <- !bool_decide_or. apply bool_decide_ext.
  unfold listed_names. rewrite !elem_of_cons, !elem_of_nil. tauto.
Qed.

Ltac decide_test t := destruct t eqn:?; cbn [orb]; [exact I|].

(** What it takes to be classified by one of the three rules that return
    the extracted status: the tests before the rule fail and its own test
    succeeds. *)
Lemma rule_of_extracting_branch (v : value) :
  match rule_of v with
  | RuleApiCall => earlier_kind v = false /\ instanceof v APICallError = true
  | RuleRetry =>
    earlier_kind v = false /\ instanceof v APICallError = false
    /\ name_in v ["RetryError"] = true
  | RuleSdk =>
    earlier_kind v = false /\ instanceof v APICallError = false
    /\ name_in v listed_names = false /\ network_code v = None
    /\ instanceof v AISDKError = true
  | _ => True
  end.
Proof.
  rewrite name_in_listed. unfold rule_of, earlier_kind.
  decide_test (instanceof v LoadAPIKeyError).
  decide_test (instanceof v NoSuchModelError).
  decide_test (instanceof v UnsupportedFunctionalityError).
  decide_test (instanceof v TypeValidationError).
  decide_test (instanceof v InvalidPromptError).
  decide_test (instanceof v EmptyResponseBodyError).
  decide_test (instanceof v InvalidResponseDataError).
  decide_test (instanceof v JSONParseError).
  decide_test (instanceof v NoContentGeneratedError).
  destruct (instanceof v APICallError) eqn:?; cbn [orb]; [split; reflexivity|].
  decide_test (name_in v ["InvalidToolInputError"; "NoSuchToolError";
                          "ToolCallRepairError"]).
  decide_test (name_in v ["InvalidArgumentError"; "InvalidDataContentError";
                          "InvalidMessageRoleError"; "MessageConversionError"]).
  decide_test (name_in v ["InvalidStreamPartError"]).
  decide_test (name_in v ["UnsupportedModelVersionError"; "NoSuchProviderError"]).
  decide_test (name_in v ["DownloadError"; "MCPClientError"]).
  destruct (name_in v ["RetryError"]) eqn:?; cbn [orb];
    [repeat split; reflexivity|].
  destruct (network_code v) eqn:?; [exact I|].
  destruct (instanceof v AISDKError) eqn:?; [repeat split; reflexivity|exact I].
Qed.

(** C2, amended. For every input the status of the result is a member of the
    fixed set, or the input is classified by the APICallError, RetryError or
    AISDKError rule and the status is the number [readStatusFrom] extracts
    from it, returned unchanged.  Being classified by one of these rules is
    stated twice: by the rule table, and by the tests of the source (no
    class tested earlier; for the RetryError rule no [APICallError]; for the
    AISDKError rule no listed name and no network code either), and the code
    of the result is the code of that rule. *)
Theorem status_fixed_or_extracted (v : value) :
  exists r : NormalizedAIError,
    normalizeAIError v = Normal r
    /\ (status r ∈ fixed_statuses
        \/ (((rule_of v = RuleApiCall
               /\ earlier_kind v = false /\ instanceof v APICallError = true
               /\ code r = apiCallCode (status r))
              \/ (rule_of v = RuleRetry
                  /\ earlier_kind v = false /\ instanceof v APICallError = false
                  /\ name_in v ["RetryError"] = true
                  /\ code r = "provider.retry")
              \/ (rule_of v = RuleSdk
                  /\ earlier_kind v = false /\ instanceof v APICallError = false
                  /\ name_in v listed_names = false /\ network_code v = None
                  /\ instanceof v AISDKError = true
                  /\ code r = "ai_sdk.error"))
             /\ (instanceof v APICallError = true \/ name_in v ["RetryError"] = true
                 \/ instanceof v AISDKError = true)
             /\ readStatusFrom v = Normal (Some (status r)))).
Proof.
  eexists. split; [apply normalizeAIError_table|]. cbn [status code].
  rewrite readStatusFrom_priority.
  destruct fixed_status_literals as (H400 & H401 & H500 & H502 & H503).
  pose proof (rule_of_extracting_branch v) as Hb.
  destruct (rule_of v) eqn:Hr; cbn [rule_status rule_code]; try (left; assumption);
    (destruct (status_by_priority v) as [n|]; cbn [default]; [right|left; assumption]);
    (split; [|split; [apply rule_of_extracting; tauto|reflexivity]]).
  - left. destruct Hb as (He & Ha). repeat (split; [assumption || reflexivity|]).
    reflexivity.
  - right. left. destruct Hb as (He & Ha & Hn).
    repeat (split; [assumption || reflexivity|]). reflexivity.
  - right. right. destruct Hb as (He & Ha & Hn & Hc & Hs).
    repeat (split; [assumption || reflexivity|]). reflexivity.
Qed.

(** C3, as the specification states it, fails: the plain object
    [{name: "LoadAPIKeyError"}] is an instance of no SDK class and its name
    is in none of the name lists, so it is normalized to status 500 and code
    ["unknown"], not to 401 and ["auth.no_api_key"]. *)
Lemma named_LoadAPIKeyError_is_unknown :
  normalizeAIError named_LoadAPIKeyError =
    Normal {| status := num 500; code := "unknown"; name := "LoadAPIKeyError";
              message := "Unexpected error"; retryAfterMs := None |}
  /\ num 500 ≠ num 401 /\ "unknown" ≠ "auth.no_api_key".
Proof. split; [reflexivity|split; discriminate]. Qed.

(** C3, amended. Classifying the plain object [{name: "LoadAPIKeyError"}]
    yields status 500 and code ["unknown"]; status 401 with code
    ["auth.no_api_key"] is the result exactly for the instances of the
    [LoadAPIKeyError] class. *)
Theorem no_api_key_iff_instance :
  (exists r : NormalizedAIError,
      normalizeAIError named_LoadAPIKeyError = Normal r
      /\ status r = num 500 /\ code r = "unknown")
  /\ (forall v : value, exists r : NormalizedAIError,
         normalizeAIError v = Normal r
         /\ (instanceof v LoadAPIKeyError = true
             <-> status r = num 401 /\ code r = "auth.no_api_key")).
Proof.
  split.
  - eexists. repeat split; reflexivity.
  - intros v. eexists. split; [apply normalizeAIError_table|].
    cbn [status code]. split.
    + intros Hi. unfold rule_of. rewrite Hi. split; reflexivity.
    + intros [_ Hc]. apply rule_of_no_api_key.
      exact (rule_code_no_api_key _ _ Hc).
Qed.

(** C4, as the specification states it, fails: for an instance of
    [LoadAPIKeyError] the result carries the fixed message of that rule, not
    the message of the input. *)
Lemma LoadAPIKeyError_message_replaced :
  normalizeAIError thrown_LoadAPIKeyError =
    Normal {| status := num 401; code := "auth.no_api_key";
              name := "AI_LoadAPIKeyError";
              message := "Missing or invalid API key"; retryAfterMs := None |}
  /\ message_property thrown_LoadAPIKeyError
     = "API key is missing. Pass it using the apiKey parameter."
  /\ "Missing or invalid API key"
     ≠ "API key is missing. Pass it using the apiKey parameter.".
Proof. split; [reflexivity|split; [reflexivity|discriminate]]. Qed.

(** C4, amended. For every input that is not an instance of
    [LoadAPIKeyError], the message of the result is the input's own message
    property when that property is present and a string, and the default
    ["Unexpected error"] otherwise; for an instance of [LoadAPIKeyError] it
    is the fixed text ["Missing or invalid API key"]. *)
Theorem message_preserved_except_no_api_key (v : value) :
  exists r : NormalizedAIError,
    normalizeAIError v = Normal r
    /\ message r = if instanceof v LoadAPIKeyError
                   then "Missing or invalid API key"
                   else message_property v.
Proof. eexists. split; [apply normalizeAIError_table|reflexivity]. Qed.

(** C5. For every input that is classified as an [APICallError], the status
    of the result is the extracted status (502 when none is extracted), and
    the code follows the sub-mapping: the six listed statuses give their
    codes, every status of at least 500 gives ["provider.error"], and every
    other status gives ["provider.request_failed"].

    In the [ai] package the imported classes other than [AISDKError] are
    siblings; the model does not assume it, so the input is required not to
    be an instance of a class tested earlier. *)
Theorem apiCall_status_to_code (v : value) :
  instanceof v APICallError = true ->
  earlier_kind v = false ->
  exists (r : NormalizedAIError) (extracted : option number),
    normalizeAIError v = Normal r
    /\ readStatusFrom v = Normal extracted
    /\ status r = default (num 502) extracted
    /\ (forall k c, (k, c) ∈ api_call_table ->
          num_eq (status r) (num k) = true -> code r = c)
    /\ (num_ge (status r) (num 500) = true -> code r = "provider.error")
    /\ ((forall k c, (k, c) ∈ api_call_table -> num_eq (status r) (num k) = false) ->
        num_ge (status r) (num 500) = false ->
        code r = "provider.request_failed").
Proof.
  intros Ha He. do 2 eexists.
  split; [apply normalizeAIError_table|].
  split; [apply readStatusFrom_priority|].
  rewrite (rule_of_api_call v He Ha). cbn [status code rule_status rule_code].
  split; [reflexivity|]. split; [|split].
  - intros k c. apply apiCallCode_table.
  - apply apiCallCode_ge_500.
  - apply apiCallCode_other.
Qed.

(** The theorem at an [APICallError] with the unmapped status 418. *)
Lemma apiCall_status_to_code_teapot :
  instanceof (thrown_APICallError 418) APICallError = true
  /\ earlier_kind (thrown_APICallError 418) = false
  /\ exists r : NormalizedAIError,
       normalizeAIError (thrown_APICallError 418) = Normal r
       /\ status r = num 418 /\ code r = "provider.request_failed".
Proof.
  split; [reflexivity|]. split; [reflexivity|].
  destruct (apiCall_status_to_code (thrown_APICallError 418) eq_refl eq_refl)
    as (r & extracted & Hn & Hx & Hs & _ & _ & Hother).
  exists r. split; [exact Hn|].
  vm_compute in Hx. injection Hx as <-.
  split; [exact Hs|]. apply Hother; rewrite Hs.
  - apply (api_call_table_cases (fun k _ => num_eq (num 418) (num k) = false));
      reflexivity.
  - reflexivity.
Defined.

(** The sub-mapping evaluated at 401, 429, 503 and 418. *)
Example apiCall_examples :
  (fun k => option_map (fun r => (status r, code r))
              match normalizeAIError (thrown_APICallError k) with
              | Normal r => Some r
              | Throw _ => None
              end) <$> [401; 429; 503; 418]%Z
  = [ Some (num 401, "auth.unauthorized"); Some (num 429, "provider.rate_limited");
      Some (num 503, "provider.error"); Some (num 418, "provider.request_failed") ].
Proof. reflexivity. Qed.

(** C6. Status extraction reads, in strict priority order, a numeric
    [status], else a numeric [statusCode], else a numeric [response.status],
    else nothing, and then the rule's default applies.  A numeric [status]
    wins whatever else the object carries: with [status: 500] and
    [statusCode: 404] the result status is 500 (and with the two swapped,
    404); a non-numeric value in a field of higher priority is skipped. *)
Theorem status_extraction_priority :
  (forall v : value, readStatusFrom v = Normal (status_by_priority v))
  /\ (forall (protos : list sdk_class) (props : gmap string value) (n : number),
        props !! "status" = Some (VNumber n) ->
        readStatusFrom (VObject false protos props) = Normal (Some n))
  /\ (forall v : value, exists r : NormalizedAIError,
        normalizeAIError v = Normal r
        /\ status r = rule_status (rule_of v) (status_by_priority v))
  /\ readStatusFrom (both_statuses 500 404) = Normal (Some (num 500))
  /\ (exists r, normalizeAIError (both_statuses 500 404) = Normal r
                /\ status r = num 500)
  /\ (exists r, normalizeAIError (both_statuses 404 500) = Normal r
                /\ status r = num 404)
  /\ readStatusFrom
       (VObject false []
          {[ "status" := VString "500"; "statusCode" := VNumber (num 404) ]})
     = Normal (Some (num 404))
  /\ readStatusFrom
       (VObject false []
          {[ "status" := VString "x"; "statusCode" := VNull;
             "response" := VObject false [] {[ "status" := VNumber (num 429) ]} ]})
     = Normal (Some (num 429))
  /\ readStatusFrom (VObject false [] ∅) = Normal None.
Proof.
  split; [exact readStatusFrom_priority|].
  split.
  { intros protos props n Hs. rewrite readStatusFrom_priority.
    unfold status_by_priority, number_at. rewrite Hs. reflexivity. }
  split.
  { intros v. eexists. split; [apply normalizeAIError_table|reflexivity]. }
  split; [reflexivity|].
  split; [eexists; split; reflexivity|].
  split; [eexists; split; reflexivity|].
  split; [reflexivity|]. split; reflexivity.
Qed.

(** C7. Rule order is first-match-wins: an input whose name is
    ["RetryError"] (and that is not an instance of a class tested earlier)
    is classified as ["provider.retry"], with the status read from the
    error and 503 by default, whatever its [code] field holds; so
    [{name: "RetryError", code: "ETIMEDOUT"}] yields 503 and
    ["provider.retry"], while [{code: "ETIMEDOUT"}] yields 502 and
    ["network.etimedout"]. *)
Theorem retry_rule_precedes_network_code :
  (forall v : value,
      earlier_kind v = false -> instanceof v APICallError = false ->
      name_property v = "RetryError" ->
      exists (r : NormalizedAIError) (extracted : option number),
        normalizeAIError v = Normal r
        /\ readStatusFrom v = Normal extracted
        /\ code r = "provider.retry"
        /\ status r = default (num 503) extracted)
  /\ normalizeAIError retry_with_network_code =
       Normal {| status := num 503; code := "provider.retry"; name := "RetryError";
                 message := "Unexpected error"; retryAfterMs := None |}
  /\ normalizeAIError only_network_code =
       Normal {| status := num 502; code := "network.etimedout"; name := "Error";
                 message := "Unexpected error"; retryAfterMs := None |}.
Proof.
  split; [|split; reflexivity].
  intros v He Ha Hn. do 2 eexists.
  split; [apply normalizeAIError_table|].
  split; [apply readStatusFrom_priority|].
  rewrite (rule_of_retry v He Ha Hn). split; reflexivity.
Qed.

(** The general part of the theorem at [{name: "RetryError", code: "ETIMEDOUT"}]. *)
Lemma retry_rule_precedes_network_code_witness :
  earlier_kind retry_with_network_code = false
  /\ instanceof retry_with_network_code APICallError = false
  /\ name_property retry_with_network_code = "RetryError"
  /\ exists r : NormalizedAIError,
       normalizeAIError retry_with_network_code = Normal r
       /\ code r = "provider.retry" /\ status r = num 503.
Proof.
  split; [reflexivity|]. split; [reflexivity|]. split; [reflexivity|].
  destruct (proj1 retry_rule_precedes_network_code retry_with_network_code
              eq_refl eq_refl eq_refl) as (r & extracted & Hn & Hx & Hc & Hs).
  exists r. split; [exact Hn|]. split; [exact Hc|].
  vm_compute in Hx. injection Hx as <-. exact Hs.
Defined.

Lemma friendly_messages_elem (s : string) :
  bool_decide (s ∈ friendly_messages) = true -> s ∈ friendly_messages.
Proof. apply bool_decide_eq_true_1. Qed.

Lemma startsWith_cons_inv (a : ascii) (p c : string) :
  startsWith c (String a p) = true -> exists c', c = String a c'.
Proof.
  unfold startsWith. destruct c as [|b c']; cbn; [discriminate|].
  destruct (ascii_dec a b) as [->|]; [eauto|discriminate].
Qed.

Ltac clash :=
  match goal with
  | H : startsWith ?c _ = true, H' : unlisted_code ?c = true |- _ =>
    unfold unlisted_code in H'; rewrite H in H';
    repeat first [rewrite orb_true_r in H' | progress cbn in H']; discriminate H'
  | H : startsWith ?c _ = true, H' : startsWith ?c _ = true |- _ =>
    apply startsWith_cons_inv in H; apply startsWith_cons_inv in H';
    destruct H as [? ->]; destruct H' as [? H']; discriminate H'
  | H : unlisted_code _ = true |- _ => discriminate H
  | H : startsWith _ _ = true |- _ => discriminate H
  end.

(** A code selects one string only. *)
Lemma friendly_for_functional (c s s' : string) :
  friendly_for c s -> friendly_for c s' -> s = s'.
Proof.
  intros H H'. destruct H; inversion H'; subst; try reflexivity; exfalso; clash.
Qed.

(** C8. [getStreamFriendlyMessage] is total: for every input it returns one
    of eight distinct non-empty strings, the one that the prefix or the
    exact value of the normalized code selects (a code selects one string
    only); when the code has none of the listed prefixes and is none of the
    listed exact values, the string is the generic one.  ["provider.retry"]
    is such a code, so an input named ["RetryError"] gets the generic
    string. *)
Theorem getStreamFriendlyMessage_fixed_set :
  (forall v : value, exists (r : NormalizedAIError) (s : string),
      normalizeAIError v = Normal r
      /\ getStreamFriendlyMessage v = Normal s
      /\ s ∈ friendly_messages /\ s ≠ ""
      /\ friendly_for (code r) s
      /\ (forall s', friendly_for (code r) s' -> s' = s)
      /\ (unlisted_code (code r) = true ->
          s = "Something went wrong. Please try again."))
  /\ length friendly_messages = 8 /\ NoDup friendly_messages
  /\ unlisted_code "provider.retry" = true
  /\ getStreamFriendlyMessage (VObject false [] {[ "name" := VString "RetryError" ]})
     = Normal "Something went wrong. Please try again."
  /\ getStreamFriendlyMessage retry_with_network_code
     = Normal "Something went wrong. Please try again.".
Proof.
  split.
  - intros v.
    assert (Hsel : exists (r : NormalizedAIError) (s : string),
               normalizeAIError v = Normal r
               /\ getStreamFriendlyMessage v = Normal s
               /\ s ∈ friendly_messages /\ s ≠ "" /\ friendly_for (code r) s).
    { unfold getStreamFriendlyMessage.
      destruct (normalizeAIError v) as [r|e] eqn:Hn;
        [|rewrite normalizeAIError_table in Hn; discriminate].
      exists r. cbn [bind].
      repeat match goal with
             | |- context [if ?b then _ else _] => destruct b eqn:?
             end;
        eexists;
        (split; [reflexivity|]);
        (split; [reflexivity|]);
        (split; [apply friendly_messages_elem; reflexivity|]);
        (split; [discriminate|]);
        try (constructor; assumption);
        try match goal with
            | H : bool_decide (_ = _) = true |- _ =>
              apply bool_decide_eq_true_1 in H; rewrite H; constructor
            end.
      apply friendly_generic. unfold unlisted_code.
      repeat match goal with H : _ = false |- _ => rewrite H; clear H end.
      reflexivity. }
    destruct Hsel as (r & s & Hn & Hs & Hin & Hne & Hf).
    exists r, s. repeat (split; [assumption|]). split.
    + intros s' Hf'. exact (friendly_for_functional _ _ _ Hf' Hf).
    + intros Hu. apply (friendly_for_functional (code r)); [assumption|].
      apply friendly_generic, Hu.
  - split; [reflexivity|]. split; [|repeat split].
    apply (bool_decide_unpack (NoDup friendly_messages)). vm_compute. exact I.
Qed.

(** The mapper at an instance of [LoadAPIKeyError], at a rate-limited
    [APICallError] and at a network error. *)
Example getStreamFriendlyMessage_examples :
  getStreamFriendlyMessage <$>
    [thrown_LoadAPIKeyError; thrown_APICallError 429; thrown_APICallError 503;
     only_network_code; VNull]
  = Normal <$>
    [ "Authentication failed (check API key).";
      "Rate limited. Please wait and try again.";
      "The model provider had an error. Please retry.";
      "Network error. Please retry.";
      "Something went wrong. Please try again." ].
Proof. reflexivity. Qed.

(** C10. No rule populates [retryAfterMs]: for every input the result has no
    such field. *)
Theorem retryAfterMs_never_set (v : value) :
  exists r : NormalizedAIError,
    normalizeAIError v = Normal r /\ retryAfterMs r = None.
Proof. eexists. split; [apply normalizeAIError_table|reflexivity]. Qed.

(** ** The reporter *)

Lemma reporter_writes_counts (st : number) (p : payload) (body : string)
    (tr : list event) :
  reporter_writes st p body tr ->
  length (List.filter is_log tr) = 0
  /\ length (List.filter is_json_call tr) <= 1
  /\ length (List.filter is_end_call tr) <= 1.
Proof.
  intros [|failed raw [e|e] [e'|o]]; cbn; repeat split; lia.
Qed.

Ltac solve_writes :=
  first [ apply writes_json
        | solve [apply (writes_fallback _ _ _ [_] [_]); constructor]
        | solve [apply (writes_fallback _ _ _ [_] [_; _]); constructor]
        | solve [apply (writes_fallback _ _ _ [_; _] [_]); constructor]
        | solve [apply (writes_fallback _ _ _ [_; _] [_; _]); constructor] ].

Section ReporterProperties.

Variable JSON_stringify : payload -> string.


End ReporterProperties.

(** * Further properties of the classifier *)

Lemma rule_of_network_code (v : value) (c : string) :
  rule_of v = RuleNetworkCode c -> network_code v = Some c.
Proof.
  unfold rule_of. repeat split_if; try discriminate;
    destruct (network_code v); try discriminate; congruence.
Qed.

Lemma network_code_listed (v : value) (c : string) :
  network_code v = Some c -> c ∈ network_codes.
Proof.
  unfold network_code. destruct (has_own v "code"); [|discriminate].
  destruct (field v "code"); try discriminate.
  case_bool_decide; [|discriminate]. congruence.
Qed.

Lemma network_codes_cases (P : string -> Prop) :
  P "ETIMEDOUT" -> P "ECONNRESET" -> P "ENOTFOUND" ->
  forall c, c ∈ network_codes -> P c.
Proof.
  intros H1 H2 H3 c Hc. unfold network_codes in Hc.
  rewrite !elem_of_cons, elem_of_nil in Hc.
  destruct Hc as [->|[->|[->|[]]]]; assumption.
Qed.

Lemma all_codes_elem (c : string) :
  bool_decide (c ∈ all_codes) = true -> c ∈ all_codes.
Proof. apply bool_decide_eq_true_1. Qed.

Lemma rule_code_in_taxonomy (v : value) (s : number) :
  rule_code (rule_of v) s ∈ all_codes
  /\ (startsWith (rule_code (rule_of v) s) "network." = true <->
      rule_code (rule_of v) s
      ∈ ["network.etimedout"; "network.econnreset"; "network.enotfound"]).
Proof.
  destruct (rule_of v) eqn:Hr; cbn [rule_code];
    try (split; [apply all_codes_elem; reflexivity|];
         split; [discriminate|];
         rewrite !elem_of_cons, elem_of_nil; intros [|[|[|[]]]]; discriminate).
  - unfold apiCallCode. repeat split_if;
      (split; [apply all_codes_elem; reflexivity|];
       split; [discriminate|];
       rewrite !elem_of_cons, elem_of_nil; intros [|[|[|[]]]]; discriminate).
  - apply rule_of_network_code, network_code_listed in Hr. revert c Hr.
    apply network_codes_cases;
      (split; [apply all_codes_elem; reflexivity|];
       split; [intros _; rewrite !elem_of_cons; cbn; tauto|reflexivity]).
Qed.

(** X1. The codes form a closed taxonomy: for every input the code of the
    result is one of the twenty-four strings of [all_codes]; in particular a
    code with the prefix ["network."] is one of the three lowercased
    network codes. *)
Theorem code_in_taxonomy (v : value) :
  exists r : NormalizedAIError,
    normalizeAIError v = Normal r
    /\ code r ∈ all_codes
    /\ (startsWith (code r) "network." = true <->
        code r ∈ ["network.etimedout"; "network.econnreset"; "network.enotfound"]).
Proof.
  eexists. split; [apply normalizeAIError_table|]. cbn [code].
  apply rule_code_in_taxonomy.
Qed.

Ltac settle_family :=
  let H := fresh "H" in
  intros H;
  first [ assumption | solve [left; assumption] | solve [right; assumption]
        | reflexivity | solve [left; reflexivity] | solve [right; reflexivity]
        | solve [decompose [or] H; discriminate] ].

(** X2. The status agrees with the family of the code: an ["auth."] code
    comes with a status equal to 401 or 403, ["provider.rate_limited"] with
    429, ["provider.error"] with a status of at least 500,
    ["provider.request_failed"] with a status that is not at least 500;
    ["input."], ["tool."] and ["model."] codes come with 400, ["network."]
    codes and the bad-response codes with 502, and ["unknown"] with 500. *)
Theorem status_agrees_with_code (v : value) :
  exists r : NormalizedAIError,
    normalizeAIError v = Normal r
    /\ (startsWith (code r) "auth." = true ->
        num_eq (status r) (num 401) = true \/ num_eq (status r) (num 403) = true)
    /\ (code r = "provider.rate_limited" -> num_eq (status r) (num 429) = true)
    /\ (code r = "provider.error" -> num_ge (status r) (num 500) = true)
    /\ (code r = "provider.request_failed" -> num_ge (status r) (num 500) = false)
    /\ (startsWith (code r) "input." = true \/ startsWith (code r) "tool." = true
        \/ startsWith (code r) "model." = true -> status r = num 400)
    /\ (startsWith (code r) "network." = true \/ code r = "provider.invalid_response"
        \/ code r = "provider.no_output" \/ code r = "stream.invalid_part"
        \/ code r = "provider.network_error" -> status r = num 502)
    /\ (code r = "unknown" -> status r = num 500).
Proof.
  eexists. split; [apply normalizeAIError_table|]. cbn [status code].
  destruct (rule_of v) eqn:Hr; cbn [rule_status rule_code];
    try (repeat split; settle_family).
  generalize (default (num 502) (status_by_priority v)). intros s.
  unfold apiCallCode. repeat split_if; repeat split; settle_family.
Qed.

(** X3. The name is preserved by every rule, the [LoadAPIKeyError] one
    included: the name of the result is the input's [name] property when it
    is a string and ["Error"] otherwise. *)
Theorem name_preserved (v : value) :
  exists r : NormalizedAIError,
    normalizeAIError v = Normal r
    /\ name r = match field v "name" with
                | VString s => s
                | _ => "Error"
                end.
Proof.
  eexists. split; [apply normalizeAIError_table|]. cbn [name].
  rewrite <- getString_name. reflexivity.
Qed.

(** X4. The classifier reads six properties only: two objects with the same
    prototype chain that agree on [name], [message], [code], [status],
    [statusCode] and [response] are normalized to the same record, whatever
    else ([stack], [cause], ...) they carry. *)
Theorem unread_properties_ignored (callable : bool) (protos : list sdk_class)
    (props props' : gmap string value) :
  (forall k, k ∈ read_keys -> props !! k = props' !! k) ->
  normalizeAIError (VObject callable protos props)
  = normalizeAIError (VObject callable protos props').
Proof.
  intros Hk.
  assert (Hname : props !! "name" = props' !! "name")
    by (apply Hk; unfold read_keys; rewrite !elem_of_cons; tauto).
  assert (Hmessage : props !! "message" = props' !! "message")
    by (apply Hk; unfold read_keys; rewrite !elem_of_cons; tauto).
  assert (Hcode : props !! "code" = props' !! "code")
    by (apply Hk; unfold read_keys; rewrite !elem_of_cons; tauto).
  assert (Hstatus : props !! "status" = props' !! "status")
    by (apply Hk; unfold read_keys; rewrite !elem_of_cons; tauto).
  assert (HstatusCode : props !! "statusCode" = props' !! "statusCode")
    by (apply Hk; unfold read_keys; rewrite !elem_of_cons; tauto).
  assert (Hresponse : props !! "response" = props' !! "response")
    by (apply Hk; unfold read_keys; rewrite !elem_of_cons; tauto).
  rewrite !normalizeAIError_table.
  unfold rule_of, name_in, network_code, status_by_priority, name_property,
    message_property.
  cbn [instanceof field has_own number_at value_at].
  destruct callable;
    rewrite ?Hname, ?Hmessage, ?Hcode, ?Hstatus, ?HstatusCode, ?Hresponse;
    reflexivity.
Qed.

(** The theorem at two errors that differ in [stack] and [cause] only. *)
Lemma unread_properties_ignored_witness :
  normalizeAIError
    (VObject false [] {[ "name" := VString "RetryError"; "stack" := VString "at a" ]})
  = normalizeAIError
      (VObject false []
         {[ "name" := VString "RetryError"; "stack" := VString "at b";
            "cause" := VNull ]}).
Proof.
  apply unread_properties_ignored.
  intros k Hk. unfold read_keys in Hk.
  rewrite !elem_of_cons, elem_of_nil in Hk.
  destruct Hk as [->|[->|[->|[->|[->|[->|[]]]]]]]; reflexivity.
Defined.

Ltac kind_case c protos :=
  destruct (bool_decide (c ∈ protos));
  [ cbn; do 2 (split; [reflexivity|]);
    split; rewrite !elem_of_cons; tauto | ].

(** X5. The rules that match on an SDK class ignore every property of the
    error: when the input is an instance of one of the nine classes tested
    before [APICallError], the status and the code of the result are
    decided by the prototype chain alone, and lie in the rules' fixed
    values, whatever [status], [code] or [name] the error carries. *)
Theorem sdk_kind_rules_ignore_properties (callable callable' : bool)
    (protos : list sdk_class) (props props' : gmap string value) :
  earlier_kind (VObject callable protos props) = true ->
  exists r r' : NormalizedAIError,
    normalizeAIError (VObject callable protos props) = Normal r
    /\ normalizeAIError (VObject callable' protos props') = Normal r'
    /\ status r = status r' /\ code r = code r'
    /\ status r ∈ [num 400; num 401; num 502]
    /\ code r ∈ [ "auth.no_api_key"; "model.not_found";
                  "model.unsupported_functionality"; "input.invalid";
                  "provider.invalid_response"; "provider.no_output" ].
Proof.
  intros He. do 2 eexists.
  split; [apply normalizeAIError_table|]. split; [apply normalizeAIError_table|].
  cbn [status code]. unfold rule_of. unfold earlier_kind in He.
  cbn [instanceof] in *.
  kind_case LoadAPIKeyError protos.
  kind_case NoSuchModelError protos.
  kind_case UnsupportedFunctionalityError protos.
  destruct (bool_decide (TypeValidationError ∈ protos));
    [cbn; do 2 (split; [reflexivity|]); split; rewrite !elem_of_cons; tauto|].
  kind_case InvalidPromptError protos.
  destruct (bool_decide (EmptyResponseBodyError ∈ protos));
    [cbn; do 2 (split; [reflexivity|]); split; rewrite !elem_of_cons; tauto|].
  destruct (bool_decide (InvalidResponseDataError ∈ protos));
    [cbn; do 2 (split; [reflexivity|]); split; rewrite !elem_of_cons; tauto|].
  kind_case JSONParseError protos.
  kind_case NoContentGeneratedError protos.
  discriminate He.
Qed.

(** The theorem at an instance of [NoSuchModelError] that carries a status
    and the name of another rule. *)
Lemma sdk_kind_rules_ignore_properties_witness :
  exists r : NormalizedAIError,
    normalizeAIError
      (VObject false [NoSuchModelError; AISDKError]
         {[ "name" := VString "RetryError"; "status" := VNumber (num 503);
            "code" := VString "ETIMEDOUT" ]}) = Normal r
    /\ status r = num 400 /\ code r = "model.not_found".
Proof.
  destruct (sdk_kind_rules_ignore_properties false false
              [NoSuchModelError; AISDKError]
              {[ "name" := VString "RetryError"; "status" := VNumber (num 503);
                 "code" := VString "ETIMEDOUT" ]} ∅ eq_refl)
    as (r & r' & Hn & Hn' & Hs & Hc & _).
  exists r. split; [exact Hn|].
  vm_compute in Hn'. injection Hn' as <-. split; assumption.
Defined.

Lemma name_in_sublist (v : value) (l l' : list string) :
  (forall x, x ∈ l' -> x ∈ l) -> name_in v l = false -> name_in v l' = false.
Proof.
  unfold name_in. intros Hsub Hl.
  apply bool_decide_eq_false_1 in Hl. apply bool_decide_eq_false_2. auto.
Qed.

Ltac sublist_of_listed :=
  let x := fresh "x" in let Hx := fresh "Hx" in
  intros x Hx; unfold listed_names; rewrite !elem_of_cons, elem_of_nil in *; tauto.

Lemma rule_of_unnamed (v : value) :
  earlier_kind v = false -> instanceof v APICallError = false ->
  name_in v listed_names = false ->
  rule_of v = match network_code v with
              | Some c => RuleNetworkCode c
              | None => if instanceof v AISDKError then RuleSdk else RuleUnknown
              end.
Proof.
  unfold earlier_kind, rule_of. intros He Ha Hn.
  repeat (apply orb_false_elim in He; destruct He as [He ?]).
  repeat match goal with H : instanceof _ _ = false |- _ => rewrite H; clear H end.
  cbn [orb].
  rewrite (name_in_sublist v listed_names
             ["InvalidToolInputError"; "NoSuchToolError"; "ToolCallRepairError"])
    by (assumption || sublist_of_listed).
  rewrite (name_in_sublist v listed_names
             ["InvalidArgumentError"; "InvalidDataContentError";
              "InvalidMessageRoleError"; "MessageConversionError"])
    by (assumption || sublist_of_listed).
  rewrite (name_in_sublist v listed_names ["InvalidStreamPartError"])
    by (assumption || sublist_of_listed).
  rewrite (name_in_sublist v listed_names
             ["UnsupportedModelVersionError"; "NoSuchProviderError"])
    by (assumption || sublist_of_listed).
  rewrite (name_in_sublist v listed_names ["DownloadError"; "MCPClientError"])
    by (assumption || sublist_of_listed).
  rewrite (name_in_sublist v listed_names ["RetryError"])
    by (assumption || sublist_of_listed).
  reflexivity.
Qed.

(** X6. The network-code rule precedes the generic SDK rule and the
    default: an input that reaches it (no earlier class, not an
    [APICallError], no listed name) and whose [code] is one of the three
    network codes gets status 502 and the lowercased code, also when it is
    an instance of [AISDKError] that carries its own status. *)
Theorem network_code_rule (v : value) (c : string) :
  earlier_kind v = false -> instanceof v APICallError = false ->
  name_in v listed_names = false ->
  network_code v = Some c ->
  exists r : NormalizedAIError,
    normalizeAIError v = Normal r
    /\ status r = num 502
    /\ code r = "network." +:+ toLowerCase c
    /\ code r ∈ ["network.etimedout"; "network.econnreset"; "network.enotfound"].
Proof.
  intros He Ha Hn Hc. eexists. split; [apply normalizeAIError_table|].
  rewrite (rule_of_unnamed v He Ha Hn), Hc. cbn [status code rule_status rule_code].
  do 2 (split; [reflexivity|]).
  apply network_code_listed in Hc. revert c Hc.
  apply network_codes_cases; cbn; rewrite !elem_of_cons; tauto.
Qed.

(** The theorem at an [AISDKError] with status 503 and code ["ECONNRESET"]. *)
Lemma network_code_rule_witness :
  exists r : NormalizedAIError,
    normalizeAIError
      (VObject false [AISDKError]
         {[ "name" := VString "AI_SDKError"; "status" := VNumber (num 503);
            "code" := VString "ECONNRESET" ]}) = Normal r
    /\ status r = num 502 /\ code r = "network.econnreset".
Proof.
  set (v := VObject false [AISDKError]
              {[ "name" := VString "AI_SDKError"; "status" := VNumber (num 503);
                 "code" := VString "ECONNRESET" ]}).
  assert (He : earlier_kind v = false) by reflexivity.
  assert (Ha : instanceof v APICallError = false) by reflexivity.
  assert (Hl : name_in v listed_names = false) by (vm_compute; reflexivity).
  assert (Hk : network_code v = Some "ECONNRESET") by (vm_compute; reflexivity).
  destruct (network_code_rule v "ECONNRESET" He Ha Hl Hk) as (r & Hn & Hs & Hc & _).
  exists r. split; [exact Hn|]. split; assumption.
Defined.

(** X7. The mapper composed with the classifier: the string shown is
    decided by the rule that classifies the input, as [rule_friendly]
    tabulates.  The authentication text is shown for a [LoadAPIKeyError] and
    for an [APICallError] of status 401 or 403; a download or MCP client
    error, whose code is ["provider.network_error"], gets the generic text
    and not the network one. *)
Theorem friendly_message_by_rule :
  (forall v : value,
      getStreamFriendlyMessage v
      = Normal (rule_friendly (rule_of v)
                  (rule_status (rule_of v) (status_by_priority v))))
  /\ (forall v : value,
        earlier_kind v = false -> instanceof v APICallError = false ->
        name_property v = "DownloadError" \/ name_property v = "MCPClientError" ->
        getStreamFriendlyMessage v = Normal "Something went wrong. Please try again.").
Proof.
  assert (Hall : forall v : value,
             getStreamFriendlyMessage v
             = Normal (rule_friendly (rule_of v)
                         (rule_status (rule_of v) (status_by_priority v)))).
  { intros v. unfold getStreamFriendlyMessage.
    rewrite normalizeAIError_table. cbn [bind code].
    destruct (rule_of v) eqn:Hr; cbn [rule_status rule_code rule_friendly];
      try reflexivity.
    - generalize (default (num 502) (status_by_priority v)). intros s.
      unfold apiCallCode.
      destruct (num_eq s (num 401)); [reflexivity|].
      destruct (num_eq s (num 403)); [reflexivity|].
      destruct (num_eq s (num 404)); [reflexivity|].
      destruct (num_eq s (num 409)); [reflexivity|].
      destruct (num_eq s (num 422)); [reflexivity|].
      destruct (num_eq s (num 429)); [reflexivity|].
      destruct (num_ge s (num 500)); reflexivity.
    - apply rule_of_network_code, network_code_listed in Hr. revert c Hr.
      apply network_codes_cases; reflexivity. }
  split; [exact Hall|].
  intros v He Ha Hn. rewrite Hall.
  assert (Hr : rule_of v = RuleNetworkError).
  { unfold earlier_kind, rule_of, name_in in *.
    repeat (apply orb_false_elim in He; destruct He as [He ?]).
    repeat match goal with H : instanceof _ _ = false |- _ => rewrite H; clear H end.
    assert (Hs : getString (field v "name") "" = name_property v).
    { destruct Hn as [Hn|Hn]; rewrite Hn;
        destruct v as [| | | | | | |c protos props]; try discriminate;
        cbn in Hn |- *; destruct (props !! "name") as [[]|]; cbn in *;
        try discriminate; assumption. }
    rewrite Hs. destruct Hn as [->| ->]; reflexivity. }
  rewrite Hr. reflexivity.
Qed.

(** The second part of the theorem at [{name: "DownloadError"}]. *)
Lemma friendly_message_by_rule_witness :
  getStreamFriendlyMessage (VObject false [] {[ "name" := VString "DownloadError" ]})
  = Normal "Something went wrong. Please try again.".
Proof.
  apply (proj2 friendly_message_by_rule); [reflexivity|reflexivity|].
  left. reflexivity.
Defined.

(** ** Normalizing a normalized error *)

Lemma to_value_reads (r : NormalizedAIError) :
  field (to_value r) "name" = VString (name r)
  /\ message_property (to_value r) = message r
  /\ name_property (to_value r) = name r
  /\ status_by_priority (to_value r) = Some (status r)
  /\ has_own (to_value r) "code" = true
  /\ field (to_value r) "code" = VString (code r).
Proof. repeat split; vm_compute; reflexivity. Qed.

Lemma all_codes_not_network (c : string) : c ∈ all_codes -> c ∉ network_codes.
Proof.
  unfold all_codes, network_codes. rewrite !elem_of_cons, !elem_of_nil.
  intros Hc Hn.
  repeat (destruct Hc as [->|Hc];
          [destruct Hn as [Hn|[Hn|[Hn|[]]]]; discriminate Hn|]).
  exact Hc.
Qed.

(** X8. Normalizing the object a normalization returned keeps its name and
    its message but forgets its classification: unless the name is one of
    the names the rules list, the second result has status 500 and code
    ["unknown"] (so 401 / ["auth.no_api_key"] becomes 500 / ["unknown"]);
    when the name is ["RetryError"], the status is read back from the
    object and the code is ["provider.retry"]. *)
Theorem renormalize_forgets_classification (v : value) :
  exists r r' : NormalizedAIError,
    normalizeAIError v = Normal r
    /\ normalizeAIError (to_value r) = Normal r'
    /\ name r' = name r /\ message r' = message r
    /\ (name r ∉ listed_names -> status r' = num 500 /\ code r' = "unknown")
    /\ (name r = "RetryError" -> status r' = status r /\ code r' = "provider.retry").
Proof.
  destruct (normalizeAIError v) as [r|e] eqn:Hn;
    [|rewrite normalizeAIError_table in Hn; discriminate].
  assert (Hcode : code r ∉ network_codes).
  { apply all_codes_not_network. rewrite normalizeAIError_table in Hn.
    injection Hn as <-. cbn [code]. apply rule_code_in_taxonomy. }
  destruct (to_value_reads r) as (Hfn & Hm & Hnp & Hs & Hown & Hfc).
  exists r. eexists. split; [reflexivity|].
  split; [apply normalizeAIError_table|]. cbn [name message status code].
  split; [exact Hnp|]. split; [rewrite Hm; reflexivity|]. split.
  - intros Hl.
    assert (Hni : name_in (to_value r) listed_names = false).
    { unfold name_in. rewrite Hfn. cbn [getString]. apply bool_decide_eq_false_2, Hl. }
    rewrite (rule_of_unnamed (to_value r) eq_refl eq_refl Hni).
    unfold network_code. rewrite Hown, Hfc.
    rewrite (bool_decide_eq_false_2 _ Hcode). split; reflexivity.
  - intros Hr. rewrite <- Hnp in Hr.
    rewrite (rule_of_retry (to_value r) eq_refl eq_refl Hr).
    cbn [rule_status rule_code]. rewrite Hs. split; reflexivity.
Qed.

(** * The chat handlers *)

Ltac run_world w :=
  repeat match goal with
         | |- context [w ?hh ?c] => destruct (w hh c) eqn:?
         end.

Ltac close_run :=
  rewrite <- ?app_assoc; cbn [app];
  eexists; eexists; (split; [reflexivity|]);
  cbn [follows nth_handle nth app];
  repeat first [ split; reflexivity
               | eexists; eexists; split; [reflexivity|] ].

Lemma strict_neq_string_true (v : value) (s : string) :
  v <> VString s -> strict_neq_string v s = true.
Proof.
  destruct v; try reflexivity. cbn. intros Hv.
  case_bool_decide; [subst; contradiction|reflexivity].
Qed.

Lemma get_not_nullish (v : value) (k : string) :
  nullish v = false -> get v k = Normal (field v k).
Proof. destruct v; try discriminate; reflexivity. Qed.



(** The guard compares with [!==]: a lowercase ["post"] and a missing
    method are rejected too. *)
Example method_guard_is_exact :
  (fun m => ChatSteps.handler obliging_world
              {| req_method := m; req_body := VNull |} [])
    <$> [VString "post"; VUndefined]
  = [ ([ Performed (ResSetHeader "Allow" "POST") (Normal 7);
         Performed (ResStatus (num 405)) (Normal 7);
         Performed (ResEnd 7 "Method Not Allowed") (Normal 7) ], Normal tt);
      ([ Performed (ResSetHeader "Allow" "POST") (Normal 7);
         Performed (ResStatus (num 405)) (Normal 7);
         Performed (ResEnd 7 "Method Not Allowed") (Normal 7) ], Normal tt) ].
Proof. reflexivity. Qed.

(** X10. A POST whose body is [null] or [undefined] makes both handlers
    throw a [TypeError] at the destructuring of the body, before any call:
    nothing is written to the response and the SDK is not called. *)
Theorem handlers_POST_without_body (w : world) (req : request)
    (h : list api_event) :
  req_method req = VString "POST" ->
  nullish (req_body req) = true ->
  ChatSteps.handler w req h = (h, Throw TypeError)
  /\ ChatTools.handler w req h = (h, Throw TypeError).
Proof.
  intros Hm Hb. unfold ChatSteps.handler, ChatTools.handler. rewrite Hm.
  change (strict_neq_string (VString "POST") "POST") with false. cbv iota.
  destruct (req_body req); try discriminate Hb; split; reflexivity.
Qed.

(** The theorem at a POST with a [null] body. *)
Lemma handlers_POST_without_body_witness :
  ChatSteps.handler obliging_world
    {| req_method := VString "POST"; req_body := VNull |} []
  = ([], Throw TypeError)
  /\ ChatTools.handler obliging_world
       {| req_method := VString "POST"; req_body := VNull |} []
     = ([], Throw TypeError).
Proof.
  apply (handlers_POST_without_body obliging_world
           {| req_method := VString "POST"; req_body := VNull |} []);
    reflexivity.
Defined.

Ltac follow_script :=
  cbn [follows nth_handle nth app];
  repeat first [ split; reflexivity
               | eexists; eexists; split; [reflexivity|] ].

Ltac close_POST_run :=
  rewrite <- ?app_assoc; cbn [app];
  eexists; eexists; (split; [reflexivity|]);
  split; [follow_script|];
  split; [repeat constructor|cbn; lia].





(** The steps handler in a world where [convertToModelMessages] throws: the
    exception leaves the handler after three calls. *)
Example steps_handler_failing_conversion :
  ChatSteps.handler failing_conversion
    {| req_method := VString "POST"; req_body := VObject false [] ∅ |} []
  = ([ Performed (SdkGoogle "gemini-1.5-flash") (Normal 7);
       Performed (SdkStepCountIs (num 5)) (Normal 7);
       Performed (SdkConvertToModelMessages VUndefined) (Throw TypeError) ],
     Throw TypeError).
Proof. reflexivity. Qed.

(** * Inputs that are not objects *)

(** X13. Only a non-null object that is not a function has its [status] and
    [code] read.  For every other input the status is one of 400, 401, 500,
    502 and 503 and the code is never a network code; and when the input is
    not a function either (a primitive, [null] or [undefined]), the result
    is the default record: 500, ["unknown"], ["Error"],
    ["Unexpected error"]. *)
Theorem non_object_inputs (v : value) :
  isObject v = false ->
  exists r : NormalizedAIError,
    normalizeAIError v = Normal r
    /\ status r ∈ [num 400; num 401; num 500; num 502; num 503]
    /\ startsWith (code r) "network." = false
    /\ (typeof v <> TFunction -> r = unknown_default).
Proof.
  intros Ho.
  destruct v as [| | | | | | |[] protos props]; try discriminate Ho;
    try (eexists; split; [reflexivity|];
         split; [rewrite !elem_of_cons; tauto|]; split; [reflexivity|];
         intros _; reflexivity).
  eexists. split; [apply normalizeAIError_table|]. cbn [status code].
  assert (Hs : status_by_priority (VObject true protos props) = None) by reflexivity.
  assert (Hc : network_code (VObject true protos props) = None) by reflexivity.
  rewrite Hs.
  destruct (rule_of (VObject true protos props)) eqn:Hr;
    cbn [rule_status rule_code default];
    try (split; [rewrite !elem_of_cons; tauto|]; split; [reflexivity|];
         intros Hf; contradiction Hf; reflexivity).
  apply rule_of_network_code in Hr. rewrite Hc in Hr. discriminate Hr.
Qed.

(** The theorem at a function named ["RetryError"] that carries a status:
    the status is not read, so the default 503 applies. *)
Lemma non_object_inputs_witness :
  exists r : NormalizedAIError,
    normalizeAIError
      (VObject true []
         {[ "name" := VString "RetryError"; "status" := VNumber (num 429) ]})
    = Normal r
    /\ status r = num 503 /\ code r = "provider.retry".
Proof.
  destruct (non_object_inputs
              (VObject true []
                 {[ "name" := VString "RetryError"; "status" := VNumber (num 429) ]})
              eq_refl) as (r & Hn & _).
  exists r. split; [exact Hn|].
  vm_compute in Hn. injection Hn as <-. split; reflexivity.
Defined.
